(** * openFTP: the FTP service facade (src/ftp_service.py)

    A shallow embedding of [FTPService] and of the pieces of Python it
    relies on (string splitting, [str.lower], [sorted], [open], the
    [ftplib.FTP] object), followed by the properties of the service that
    the specification states. *)

From Stdlib Require Import Ascii NArith Permutation Sorted.
From Stdlib Require String.
From stdpp Require Import gmap strings list.

(** ** Python values *)

(** An exception is identified by the name of its class; [exn_arg] keeps
    the argument it was raised with. *)
Record exn := Exn { exn_class : string; exn_arg : string }.

Inductive result (A : Type) : Type :=
  | Ok (a : A)
  | Raise (e : exn).
Arguments Ok {A} a.
Arguments Raise {A} e.

(** ** Strings

    Characters are the code points below 256 (latin-1); whitespace and
    [str.lower] are given on that range. *)
Module Str.

Definition code (c : ascii) : N := N_of_ascii c.

(** [str.isspace] on one character: TAB LF VT FF CR, FS GS RS US, SPACE,
    NEL (0x85) and NBSP (0xA0). *)
Definition isspace (c : ascii) : bool :=
  let n := code c in
  ((9 <=? n) && (n <=? 13) || (28 <=? n) && (n <=? 32)
   || (n =? 133) || (n =? 160))%N.

(** [str.lower] on one character: A-Z, and the latin-1 capitals
    0xC0-0xDE without the multiplication sign 0xD7. *)
Definition lower_char (c : ascii) : ascii :=
  let n := code c in
  if ((65 <=? n) && (n <=? 90)
      || (192 <=? n) && (n <=? 222) && negb (n =? 215))%N
  then ascii_of_N (n + 32) else c.

(** [str.lower] *)
Fixpoint lower (s : string) : string :=
  match s with
  | EmptyString => EmptyString
  | String c s' => String (lower_char c) (lower s')
  end.

(** The scan of [str.split()] with no separator: [tok] is the token read
    so far; a whitespace character ends it, and empty tokens are never
    produced. *)
Fixpoint split_from (tok : string) (s : string) : list string :=
  match s with
  | EmptyString => if decide (tok = "") then [] else [tok]
  | String c s' =>
      if isspace c
      then (if decide (tok = "") then split_from "" s'
            else tok :: split_from "" s')
      else split_from (tok +:+ String c "") s'
  end.

(** [s.split()] *)
Definition split (s : string) : list string := split_from "" s.

(** [sep.join(l)] *)
Fixpoint join (sep : string) (l : list string) : string :=
  match l with
  | [] => ""
  | [x] => x
  | x :: l' => x +:+ sep +:+ join sep l'
  end.

(** [s.startswith(c)] for a one-character prefix *)
Definition startswith (s : string) (c : ascii) : bool :=
  match s with
  | String c' _ => bool_decide (c' = c)
  | EmptyString => false
  end.

(** [a < b] on strings: lexicographic on code points *)
Definition lt (a b : string) : bool := String.ltb a b.

End Str.

(** ** [sorted(l, key=key)]

    Python's sort is stable and compares keys with [<] only. The result of
    a stable sort is unique, so insertion from the right gives it: an
    element goes in front of the first one whose key is not smaller. *)
Section Sorted.
Context {A K : Type} (key : A → K) (klt : K → K → bool).

Fixpoint insert_sorted (x : A) (l : list A) : list A :=
  match l with
  | [] => [x]
  | y :: l' =>
      if klt (key y) (key x) then y :: insert_sorted x l' else x :: y :: l'
  end.

Fixpoint sorted (l : list A) : list A :=
  match l with
  | [] => []
  | x :: l' => insert_sorted x (sorted l')
  end.
End Sorted.

(** ** The listing parser (the loop of [FTPService.list_directory]) *)

(** The dict appended to [items]. *)
Record item := Item {
  name : string;
  type : string;
  size : string;
  is_dir : bool
}.

Global Instance item_eq_dec : EqDecision item.
Proof. solve_decision. Defined.

(** [l[i]]: IndexError out of range *)
Definition getitem (l : list string) (i : nat) : result string :=
  match l !! i with
  | Some x => Ok x
  | None => Raise (Exn "IndexError" "list index out of range")
  end.

(** One iteration of [for line in ...]: [None] is [continue], [Some it] is
    [items.append(it)]. *)
Definition parse_line (line : string) : result (option item) :=
  let parts := Str.split line in
  if decide (length parts < 9) then Ok None
  else
    let name := Str.join " " (drop 8 parts) in
    let is_dir := Str.startswith line "d" in
    let item_type := if is_dir then "Directorio" else "Archivo" in
    match (if negb is_dir then getitem parts 4 else Ok "") with
    | Raise e => Raise e
    | Ok size => Ok (Some (Item name item_type size is_dir))
    end.

(** The loop itself, [items] being the list built so far. *)
Fixpoint parse_loop (items : list item) (lines : list string)
  : result (list item) :=
  match lines with
  | [] => Ok items
  | line :: rest =>
      match parse_line line with
      | Raise e => Raise e
      | Ok None => parse_loop items rest
      | Ok (Some it) => parse_loop (items ++ [it]) rest
      end
  end.

(** [items = []; for line in sorted(lines, key=str.lower): ...] *)
Definition parse_listing (lines : list string) : result (list item) :=
  parse_loop [] (sorted Str.lower Str.lt lines).

(** ** Orders on a listing *)

(** [a] may stand in front of [b]: the key of [b] is not smaller *)
Definition in_order {A K} (key : A → K) (klt : K → K → bool) (a b : A) : Prop :=
  klt (key b) (key a) = false.

(** no key is smaller than the one before it *)
Fixpoint nondecreasing {K} (klt : K → K → bool) (keys : list K) : bool :=
  match keys with
  | a :: (b :: _) as rest => negb (klt b a) && nondecreasing klt rest
  | _ => true
  end.

(** sorted case-insensitively by name *)
Definition sorted_by_name (items : list item) : bool :=
  nondecreasing Str.lt (map (λ it, Str.lower (name it)) items).

(** a line with at least 9 words *)
Definition long (line : string) : Prop := 9 ≤ length (Str.split line).

Global Instance long_dec (line : string) : Decision (long line).
Proof. unfold long. apply _. Defined.

(** ** The environment

    [ftplib.FTP] is not part of the repository: the service is modelled
    over an interface to it. [Net] is everything the library can read or
    change (the sockets, the server, the state of the [FTP] objects), and a
    [Handle] is a reference to one [FTP] object. A call takes the network
    to a new state whether it returns or raises. *)

Abbreviation bytes := (list Byte.byte).

Class FtpLib (Handle Net : Type) := {
  (** [FTP(host, timeout=timeout)]: connects and reads the greeting *)
  ftp_new : string → Z → Net → result Handle * Net;
  (** [ftp.login(user, passwd)]: the reply that accepted the login *)
  ftp_login : Handle → string → string → Net → result string * Net;
  (** [ftp.quit()] *)
  ftp_quit : Handle → Net → result string * Net;
  (** [ftp.cwd(dirname)] *)
  ftp_cwd : Handle → string → Net → result string * Net;
  (** [ftp.pwd()] *)
  ftp_pwd : Handle → Net → result string * Net;
  (** [ftp.dir(callback)]: the lines handed to the callback, in order *)
  ftp_dir : Handle → Net → result (list string) * Net;
  (** [ftp.storbinary(cmd, fp)], [fp] holding the given bytes *)
  ftp_storbinary : Handle → string → bytes → Net → result string * Net;
  (** [ftp.retrbinary(cmd, callback)]: the blocks handed to the callback
      before the call returned or raised, and how it ended *)
  ftp_retrbinary : Handle → string → Net → (list bytes * result string) * Net
}.

(** The local disk as [open] sees it: the regular files with their content,
    and the paths [open] refuses (a directory, a missing parent, missing
    rights). A file is known by the path it is opened with: two spellings
    of a path, or two links to a file, are two entries here. *)
Record Disk := {
  files : gmap string bytes;
  refused : gset string
}.

(** The state a method of the service runs in: the attribute [self.ftp],
    the network and the local disk. *)
Record World {Handle Net : Type} := {
  ftp : option Handle;
  net : Net;
  disk : Disk
}.
Arguments World : clear implicits.

(** [None.attr] *)
Definition no_attribute (attr : string) : exn :=
  Exn "AttributeError" ("'NoneType' object has no attribute '" +:+ attr +:+ "'").

(** ** Methods: state and exceptions *)
Section Service.
Context {Handle Net : Type} `{!FtpLib Handle Net}.

Local Abbreviation world := (World Handle Net).

Definition M (A : Type) : Type := world → result A * world.

Definition ret {A} (a : A) : M A := λ w, (Ok a, w).

Definition raise {A} (e : exn) : M A := λ w, (Raise e, w).

Definition bind {A B} (m : M A) (k : A → M B) : M B := λ w,
  match m w with
  | (Ok a, w') => k a w'
  | (Raise e, w') => (Raise e, w')
  end.

(** [x ← m; k] and [m;; k] below are stdpp's notations for [bind]. *)
#[export] Instance M_ret : MRet M := @ret.
#[export] Instance M_bind : MBind M := λ A B k m, bind m k.

(** a pure computation that may raise *)
Definition lift {A} (r : result A) : M A := λ w, (r, w).

Definition with_net (n : Net) (w : world) : world :=
  {| ftp := ftp w; net := n; disk := disk w |}.

(** a call into ftplib *)
Definition call {A} (f : Net → result A * Net) : M A := λ w,
  let '(r, n) := f (net w) in (r, with_net n w).

(** [self.ftp = v] *)
Definition set_ftp (v : option Handle) : M unit := λ w,
  (Ok (), {| ftp := v; net := net w; disk := disk w |}).

(** [self.ftp] *)
Definition get_ftp : M (option Handle) := λ w, (Ok (ftp w), w).

(** [self.ftp.attr]: an attribute of [None] does not exist *)
Definition method (attr : string) : M Handle :=
  o ← get_ftp;
  match o with
  | Some h => ret h
  | None => raise (no_attribute attr)
  end.

(** [open(path, 'rb')], with the content the file object will yield *)
Definition open_rb (path : string) : M bytes := λ w,
  if decide (path ∈ refused (disk w)) then (Raise (Exn "OSError" path), w)
  else match files (disk w) !! path with
       | Some content => (Ok content, w)
       | None => (Raise (Exn "FileNotFoundError" path), w)
       end.

(** [open(path, 'wb')]: the file exists and is empty from here on *)
Definition open_wb (path : string) : M unit := λ w,
  if decide (path ∈ refused (disk w)) then (Raise (Exn "OSError" path), w)
  else (Ok (),
        {| ftp := ftp w; net := net w;
           disk := {| files := <[path := []]> (files (disk w));
                      refused := refused (disk w) |} |}).

(** [f.write(block)] on the file opened at [path] *)
Definition write (path : string) (block : bytes) : M unit := λ w,
  (Ok (),
   {| ftp := ftp w; net := net w;
      disk := {| files := <[path := default [] (files (disk w) !! path) ++ block]>
                            (files (disk w));
                 refused := refused (disk w) |} |}).

(** the callback runs once for each block, in the order of arrival *)
Fixpoint each {A} (callback : A → M unit) (blocks : list A) : M unit :=
  match blocks with
  | [] => ret ()
  | b :: rest => callback b;; each callback rest
  end.

(** a call into ftplib that feeds a callback *)
Definition call_with {A B} (f : Net → (list A * result B) * Net)
    (callback : A → M unit) : M B :=
  '(blocks, r) ← call (λ n, let '(br, n') := f n in (Ok br, n'));
  each callback blocks;;
  lift r.

(** ** [FTPService] *)

(** the default of [timeout] in [connect] *)
Definition default_timeout : Z := 10.

(** [__init__] leaves [self.ftp = None]. *)
Definition init (n : Net) (d : Disk) : world :=
  {| ftp := None; net := n; disk := d |}.

Definition connect (host user password : string) (timeout : Z) : M string :=
  h ← call (ftp_new host timeout);
  set_ftp (Some h);;
  h ← method "login";
  welcome_message ← call (ftp_login h user password);
  ret welcome_message.

(** An [FTP] object is always true in [if self.ftp:], [None] never. *)
Definition disconnect : M unit :=
  o ← get_ftp;
  match o with
  | Some _ =>
      h ← method "quit";
      call (ftp_quit h);;
      set_ftp None
  | None => ret ()
  end.

Definition list_directory (path : string) : M (string * list item) :=
  h ← method "cwd";
  call (ftp_cwd h path);;
  h ← method "pwd";
  current_path ← call (ftp_pwd h);
  h ← method "dir";
  lines ← call (ftp_dir h);
  items ← lift (parse_listing lines);
  ret (current_path, items).

Definition upload_file (local_path remote_name : string) : M unit :=
  f ← open_rb local_path;
  h ← method "storbinary";
  call (ftp_storbinary h ("STOR " +:+ remote_name) f);;
  ret ().

Definition download_file (remote_name local_path : string) : M unit :=
  open_wb local_path;;
  h ← method "retrbinary";
  call_with (ftp_retrbinary h ("RETR " +:+ remote_name)) (write local_path);;
  ret ().

Definition is_connected (w : world) : bool :=
  bool_decide (ftp w ≠ None).

End Service.

(** ** A test double for ftplib

    An in-memory server with scripted replies, and [ftplib.FTP] talking to
    it the way the library does: a reply is accepted or raised according to
    its first digit. It gives the scenarios of the specification something
    to run on; the theorems below hold for every [FtpLib]. *)
Module Double.

Record Server := {
  up : bool;                         (* the host accepts the connection *)
  greeting : string;
  user_reply : string;
  pass_reply : string;
  acct_reply : string;
  quit_reply : string;
  tree : gmap string (list string);  (* directory ↦ lines of LIST *)
  wd : string;                       (* working directory *)
  store : gmap string bytes;         (* remote objects *)
  block : nat;                       (* bytes per data block, minus one *)
  seen : list string                 (* commands received, oldest first *)
}.

Definition receive (cmd : string) (s : Server) : Server :=
  {| up := up s; greeting := greeting s; user_reply := user_reply s;
     pass_reply := pass_reply s; acct_reply := acct_reply s;
     quit_reply := quit_reply s; tree := tree s; wd := wd s;
     store := store s; block := block s; seen := seen s ++ [cmd] |}.

Definition chdir (path : string) (s : Server) : Server :=
  {| up := up s; greeting := greeting s; user_reply := user_reply s;
     pass_reply := pass_reply s; acct_reply := acct_reply s;
     quit_reply := quit_reply s; tree := tree s; wd := path;
     store := store s; block := block s; seen := seen s |}.

Definition put (obj : string) (data : bytes) (s : Server) : Server :=
  {| up := up s; greeting := greeting s; user_reply := user_reply s;
     pass_reply := pass_reply s; acct_reply := acct_reply s;
     quit_reply := quit_reply s; tree := tree s; wd := wd s;
     store := <[obj := data]> (store s); block := block s; seen := seen s |}.

(** [FTP.getresp]: 1xx, 2xx and 3xx are returned, the rest is raised *)
Definition getresp (resp : string) : result string :=
  match resp with
  | String "1" _ | String "2" _ | String "3" _ => Ok resp
  | String "4" _ => Raise (Exn "error_temp" resp)
  | String "5" _ => Raise (Exn "error_perm" resp)
  | _ => Raise (Exn "error_proto" resp)
  end%char.

(** [FTP.voidresp]: only 2xx is accepted *)
Definition voidresp (resp : string) : result string :=
  match getresp resp with
  | Ok (String "2" _ as r) => Ok r
  | Ok r => Raise (Exn "error_reply" r)
  | Raise e => Raise e
  end%char.

Definition starts (c : ascii) (s : string) : bool := Str.startswith s c.

(** the argument of a command line, after its verb and one space *)
Definition argument (cmd : string) : string :=
  String.substring 5 (String.length cmd - 5) cmd.

Fixpoint blocks_of (fuel n : nat) (data : bytes) : list bytes :=
  match fuel, data with
  | S fuel', _ :: _ => take (S n) data :: blocks_of fuel' n (drop (S n) data)
  | _, _ => []
  end.

Definition new (host : string) (timeout : Z) (s : Server)
  : result unit * Server :=
  if up s then
    (match getresp (greeting s) with Ok _ => Ok () | Raise e => Raise e end, s)
  else (Raise (Exn "ConnectionRefusedError" host), s).

Definition login (h : unit) (user passwd : string) (s : Server)
  : result string * Server :=
  let s := receive ("USER " +:+ user) s in
  match getresp (user_reply s) with
  | Raise e => (Raise e, s)
  | Ok resp =>
      let '(r, s) :=
        if starts "3" resp
        then let s := receive ("PASS " +:+ passwd) s in (getresp (pass_reply s), s)
        else (Ok resp, s) in
      match r with
      | Raise e => (Raise e, s)
      | Ok resp =>
          let '(r, s) :=
            if starts "3" resp
            then let s := receive "ACCT " s in (getresp (acct_reply s), s)
            else (Ok resp, s) in
          match r with
          | Raise e => (Raise e, s)
          | Ok resp =>
              if starts "2" resp then (Ok resp, s)
              else (Raise (Exn "error_reply" resp), s)
          end
      end
  end.

Definition quit (h : unit) (s : Server) : result string * Server :=
  let s := receive "QUIT" s in
  (voidresp (quit_reply s), s).

(** the server knows a directory by its exact path *)
Definition cwd (h : unit) (dirname : string) (s : Server)
  : result string * Server :=
  let s := receive ("CWD " +:+ dirname) s in
  match tree s !! dirname with
  | Some _ => (voidresp "250 Directory changed", chdir dirname s)
  | None => (voidresp "550 No such directory", s)
  end.

Definition pwd (h : unit) (s : Server) : result string * Server :=
  (Ok (wd s), receive "PWD" s).

Definition dir (h : unit) (s : Server) : result (list string) * Server :=
  (Ok (default [] (tree s !! wd s)), receive "LIST" s).

Definition storbinary (h : unit) (cmd : string) (data : bytes) (s : Server)
  : result string * Server :=
  (voidresp "226 Transfer complete", put (argument cmd) data (receive cmd s)).

Definition retrbinary (h : unit) (cmd : string) (s : Server)
  : (list bytes * result string) * Server :=
  let s := receive cmd s in
  match store s !! argument cmd with
  | Some data =>
      ((blocks_of (length data) (block s) data,
        voidresp "226 Transfer complete"), s)
  | None => (([], getresp "550 No such file"), s)
  end.

#[global] Instance lib : FtpLib unit Server := {|
  ftp_new := new; ftp_login := login; ftp_quit := quit; ftp_cwd := cwd;
  ftp_pwd := pwd; ftp_dir := dir; ftp_storbinary := storbinary;
  ftp_retrbinary := retrbinary
|}.

(** The server of the scenarios: it greets, asks for a password and
    accepts it; [/] lists the three lines of the listing scenario. *)
Definition scenario_lines : list string :=
  [ "total 8";
    "drwxr-xr-x 2 u g 4096 Jan 1 00:00 docs";
    "-rw-r--r-- 1 u g 120 Jan 1 00:00 a.txt" ].

Definition server_of (pass_reply quit_reply : string) (lines : list string)
  : Server :=
  {| up := true;
     greeting := "220 Welcome";
     user_reply := "331 Password required";
     pass_reply := pass_reply;
     acct_reply := "230 Logged in";
     quit_reply := quit_reply;
     tree := {[ "/" := lines; "/docs" := [] ]};
     wd := "/";
     store := ∅;
     block := 3;
     seen := [] |}.

Definition server : Server :=
  server_of "230 Logged in" "221 Goodbye" scenario_lines.

Definition empty_disk : Disk := {| files := ∅; refused := ∅ |}.

Definition disk_with (path : string) (content : bytes) : Disk :=
  {| files := {[ path := content ]}; refused := ∅ |}.

(** the bytes of [hello] *)
Definition hello : bytes := [Byte.x68; Byte.x65; Byte.x6c; Byte.x6c; Byte.x6f].

Definition home : Disk := disk_with "/home/alice/notes.txt" hello.

(** a listing with a directory whose name sorts before the name of a file *)
Definition apps_and_zebra : list string :=
  [ "drwxr-xr-x 2 u g 4096 Jan 1 00:00 apps";
    "-rw-r--r-- 1 u g 120 Jan 1 00:00 zebra.txt" ].

(** a directory line that starts with a blank *)
Definition indented : string := " drwxr-xr-x 2 u g 4096 Jan 1 00:00 docs".

(** a fresh [FTPService()] in front of [s] *)
Definition fresh (s : Server) (d : Disk) : World unit Server := init s d.

(** the service once [connect] has returned *)
Definition connected (s : Server) (d : Disk) : World unit Server :=
  snd (connect "ftp.example.com" "alice" "secret" default_timeout (fresh s d)).

End Double.

(** ** Words

    What [str.split()] returns: strings that are not empty and hold no
    whitespace. *)
Fixpoint no_blank (s : string) : bool :=
  match s with
  | EmptyString => true
  | String c s' => negb (Str.isspace c) && no_blank s'
  end.

Definition word (s : string) : Prop := s ≠ "" ∧ no_blank s = true.

(** ** [LocalFileService] (src/local_file_service.py)

    The calls into [os], [os.path] and [platform] are taken as given: an
    [OS] is what they answer while one method runs. *)
Module LocalFileService.

Record OS := {
  os_path_exists : string → bool;
  os_path_isdir : string → bool;
  os_path_abspath : string → string;
  os_listdir : string → result (list string);
  os_path_join : string → string → string;
  os_path_getsize : string → result Z;
  os_path_expanduser : string → string;
  os_path_dirname : string → string;
  platform_system : string
}.

(** the value under ['size']: an [int] for a file, [""] for a directory *)
Inductive value :=
  | Int (n : Z)
  | Text (s : string).

Record item := Item {
  name : string;
  type : string;
  size : value;
  is_dir : bool
}.

(** [OSError] and the built-in classes derived from it: what
    [except (OSError, PermissionError)] catches *)
Definition os_errors : list string :=
  [ "OSError"; "BlockingIOError"; "ChildProcessError"; "ConnectionError";
    "BrokenPipeError"; "ConnectionAbortedError"; "ConnectionRefusedError";
    "ConnectionResetError"; "FileExistsError"; "FileNotFoundError";
    "InterruptedError"; "IsADirectoryError"; "NotADirectoryError";
    "PermissionError"; "ProcessLookupError"; "TimeoutError" ].

Definition caught (e : exn) : bool := bool_decide (exn_class e ∈ os_errors).

(** the body of [for item_name in ...], with its [try] *)
Definition visit (os : OS) (abs_path : string) (items : list item)
    (item_name : string) : result (list item) :=
  let full_path := os_path_join os abs_path item_name in
  let is_dir := os_path_isdir os full_path in
  let item_type := if is_dir then "Directorio" else "Archivo" in
  let size :=
    if negb is_dir
    then match os_path_getsize os full_path with
         | Ok n => Ok (Int n)
         | Raise e => Raise e
         end
    else Ok (Text "") in
  match size with
  | Ok size => Ok (items ++ [Item item_name item_type size is_dir])
  | Raise e => if caught e then Ok items else Raise e
  end.

Fixpoint visit_all (os : OS) (abs_path : string) (items : list item)
    (names : list string) : result (list item) :=
  match names with
  | [] => Ok items
  | item_name :: rest =>
      match visit os abs_path items item_name with
      | Ok items' => visit_all os abs_path items' rest
      | Raise e => Raise e
      end
  end.

Definition list_directory (os : OS) (path : string)
  : result (string * list item) :=
  if negb (os_path_exists os path) || negb (os_path_isdir os path)
  then Raise (Exn "FileNotFoundError"
                ("La ruta no existe o no es un directorio: " +:+ path))
  else
    let abs_path := os_path_abspath os path in
    match os_listdir os abs_path with
    | Raise e => Raise e
    | Ok names =>
        match visit_all os abs_path [] (sorted Str.lower Str.lt names) with
        | Raise e => Raise e
        | Ok items => Ok (abs_path, items)
        end
    end.

(** [string.ascii_uppercase] *)
Definition ascii_uppercase : list ascii :=
  String.list_ascii_of_string "ABCDEFGHIJKLMNOPQRSTUVWXYZ".

Definition get_available_drives (os : OS) : list string :=
  if decide (platform_system os = "Windows")
  then (λ d, String d ":\") <$>
         filter (λ d, os_path_exists os (String d ":") = true) ascii_uppercase
  else [].

Definition get_user_home (os : OS) : string := os_path_expanduser os "~".

Definition get_parent_dir (os : OS) (path : string) : string :=
  os_path_dirname os path.

(** the names [list_directory] keeps: the directories, and the files whose
    size can be read *)
Definition readable (os : OS) (abs_path item_name : string) : bool :=
  let full_path := os_path_join os abs_path item_name in
  os_path_isdir os full_path
  || match os_path_getsize os full_path with Ok _ => true | Raise _ => false end.

(** what [list_directory] makes of a name it keeps *)
Definition describes (os : OS) (abs_path item_name : string) (it : item) : Prop :=
  let full_path := os_path_join os abs_path item_name in
  name it = item_name
  ∧ is_dir it = os_path_isdir os full_path
  ∧ type it = (if is_dir it then "Directorio" else "Archivo")
  ∧ (if is_dir it then size it = Text ""
     else ∃ n, os_path_getsize os full_path = Ok n ∧ size it = Int n).

End LocalFileService.

(** ** Remote navigation (src/gui.py, [FTPClientGUI.on_double_click]) *)
Module Gui.

(** the scan of [s.split(sep)] for a one-character separator: every
    separator ends a part, empty parts included *)
Fixpoint split_at (sep : ascii) (part : string) (s : string) : list string :=
  match s with
  | EmptyString => [part]
  | String c s' =>
      if decide (c = sep) then part :: split_at sep "" s'
      else split_at sep (part +:+ String c "") s'
  end.

(** [s.split('/')] *)
Definition split_slash (s : string) : list string := split_at "/" "" s.

(** [a or b] on strings *)
Definition or_else (a b : string) : string := if decide (a = "") then b else a.

(** [item_id == ".."]:
    ["/".join(self.current_remote_path.split('/')[:-1]) or "/"] *)
Definition parent_path (current_remote_path : string) : string :=
  let parts := split_slash current_remote_path in
  or_else (Str.join "/" (take (length parts - 1) parts)) "/".

(** otherwise: [f"{self.current_remote_path}/{item_id}"], or [f"/{item_id}"]
    when the current path is ["/"] *)
Definition child_path (current_remote_path item_id : string) : string :=
  if decide (current_remote_path ≠ "/")
  then current_remote_path +:+ "/" +:+ item_id
  else "/" +:+ item_id.

(** the new path of a double click on a directory of the remote tree *)
Definition new_path (current_remote_path item_id : string) : string :=
  if decide (item_id = "..") then parent_path current_remote_path
  else child_path current_remote_path item_id.

(** no [/] in a name *)
Fixpoint plain (s : string) : bool :=
  match s with
  | EmptyString => true
  | String c s' => negb (bool_decide (c = "/"%char)) && plain s'
  end.

End Gui.

(** ** More of the test double *)
Module Fixtures.
Import Double.

(** a host that refuses the connection *)
Definition down : Server :=
  {| up := false; greeting := ""; user_reply := ""; pass_reply := "";
     acct_reply := ""; quit_reply := ""; tree := ∅; wd := "/"; store := ∅;
     block := 3; seen := [] |}.

(** a home directory with a folder, two files, and a file that cannot be
    read *)
Definition posix : LocalFileService.OS :=
  {| LocalFileService.os_path_exists p := bool_decide (p ∈ ["/home"; "/home/alice"]);
     LocalFileService.os_path_isdir p :=
       bool_decide (p ∈ ["/home"; "/home/alice"; "/home/alice/Music"]);
     LocalFileService.os_path_abspath p := p;
     LocalFileService.os_listdir p :=
       if decide (p = "/home/alice")
       then Ok ["notes.txt"; "Music"; "locked"; "Budget.ods"]
       else Raise (Exn "FileNotFoundError" p);
     LocalFileService.os_path_join a b := a +:+ "/" +:+ b;
     LocalFileService.os_path_getsize p :=
       if decide (p = "/home/alice/notes.txt") then Ok 5%Z
       else if decide (p = "/home/alice/Budget.ods") then Ok 2048%Z
       else Raise (Exn "PermissionError" p);
     LocalFileService.os_path_expanduser p := "/home/alice";
     LocalFileService.os_path_dirname p := "/home";
     LocalFileService.platform_system := "Linux" |}.

(** what [list_directory] makes of it *)
Definition alice_entries : list LocalFileService.item :=
  [ LocalFileService.Item "Budget.ods" "Archivo" (LocalFileService.Int 2048) false;
    LocalFileService.Item "Music" "Directorio" (LocalFileService.Text "") true;
    LocalFileService.Item "notes.txt" "Archivo" (LocalFileService.Int 5) false ].

(** a machine with the drives C: and E: *)
Definition windows : LocalFileService.OS :=
  {| LocalFileService.os_path_exists p := bool_decide (p ∈ ["C:"; "E:"]);
     LocalFileService.os_path_isdir p := bool_decide (p ∈ ["C:"; "E:"]);
     LocalFileService.os_path_abspath p := p;
     LocalFileService.os_listdir p := Ok [];
     LocalFileService.os_path_join a b := a +:+ "\" +:+ b;
     LocalFileService.os_path_getsize p := Ok 0%Z;
     LocalFileService.os_path_expanduser p := "C:\Users\alice";
     LocalFileService.os_path_dirname p := "C:\";
     LocalFileService.platform_system := "Windows" |}.

(** a disk on which [/etc/motd] cannot be opened *)
Definition guarded : Disk :=
  {| files := {[ "/home/alice/notes.txt" := hello ]};
     refused := {[ "/etc/motd" ]} |}.

(** a name with runs of blanks *)
Definition holiday : string :=
  "-rw-r--r-- 1 u g 120 Jan 1 00:00 my  holiday   photo.jpg".

End Fixtures.

(** ** Running a method *)

Ltac run :=
  unfold connect, disconnect, list_directory, upload_file, download_file,
    call_with, method, call, get_ftp, set_ftp, lift, raise, open_rb, open_wb,
    with_net, mbind, M_bind, bind, mret, M_ret, ret, is_connected;
  simpl.

(** * Properties *)

(** ** The scenarios of the specification *)

Example connect_scenario :
  fst (connect "ftp.example.com" "alice" "secret" 10 (Double.fresh Double.server Double.empty_disk))
  = Ok "230 Logged in".
Proof. vm_compute. reflexivity. Qed.

Example listing_scenario :
  fst ((connect "ftp.example.com" "alice" "secret" 10;; list_directory "/")
         (Double.fresh Double.server Double.empty_disk))
  = Ok ("/", [ Item "a.txt" "Archivo" "120" false;
               Item "docs" "Directorio" "" true ]).
Proof. vm_compute. reflexivity. Qed.

(** ** Strings and sorting *)

Lemma append_empty (s : string) : s +:+ "" = s.
Proof.
  induction s as [|c s IH]; [reflexivity|].
  change (String c (s +:+ "") = String c s). by rewrite IH.
Qed.

Lemma append_snoc (s t : string) (c : ascii) :
  (s +:+ String c "") +:+ t = s +:+ String c t.
Proof.
  induction s as [|a s IH]; [reflexivity|].
  change (String a ((s +:+ String c "") +:+ t) = String a (s +:+ String c t)).
  by rewrite IH.
Qed.

(** A token under construction always ends up as the first word. *)
Lemma split_from_head (s tok : string) :
  tok ≠ "" → ∃ suffix rest, Str.split_from tok s = (tok +:+ suffix) :: rest.
Proof.
  revert tok. induction s as [|c s IH]; intros tok Htok; simpl.
  - exists "", []. rewrite append_empty. by destruct (decide (tok = "")).
  - destruct (Str.isspace c).
    + destruct (decide (tok = "")); [done|].
      eexists "", _. by rewrite append_empty.
    + destruct (IH (tok +:+ String c "")) as (suffix & rest & ->).
      { by destruct tok. }
      exists (String c suffix), rest. by rewrite append_snoc.
Qed.

(** Without a leading blank, the first word starts where the line does. *)
Lemma split_first_word (c : ascii) (s : string) :
  Str.isspace c = false →
  ∃ suffix rest, Str.split (String c s) = String c suffix :: rest.
Proof.
  intros Hc. unfold Str.split. simpl. rewrite Hc.
  change ("" +:+ String c "") with (String c "").
  destruct (split_from_head s (String c "")) as (suffix & rest & ->); [done|].
  by exists suffix, rest.
Qed.

Section SortedFacts.
Context {A K : Type} (key : A → K) (klt : K → K → bool).

Lemma insert_sorted_perm (x : A) (l : list A) :
  insert_sorted key klt x l ≡ₚ x :: l.
Proof.
  induction l as [|y l IH]; simpl; [done|].
  destruct (klt (key y) (key x)); [|done].
  rewrite IH. apply Permutation_swap.
Qed.

Lemma sorted_perm (l : list A) : sorted key klt l ≡ₚ l.
Proof.
  induction l as [|x l IH]; simpl; [done|].
  by rewrite insert_sorted_perm, IH.
Qed.

Hypothesis klt_asym : ∀ a b, klt a b = true → klt b a = false.

Lemma insert_sorted_in_order (x : A) (l : list A) :
  Sorted (in_order key klt) l → Sorted (in_order key klt) (insert_sorted key klt x l).
Proof.
  induction l as [|y l IH]; simpl; intros Hl.
  - by repeat constructor.
  - destruct (klt (key y) (key x)) eqn:Hyx.
    + inversion Hl as [|? ? Hl' Hhd]; subst.
      constructor; [by apply IH|].
      destruct l as [|z l]; simpl.
      * constructor. by apply klt_asym.
      * destruct (klt (key z) (key x)).
        -- constructor. by inversion Hhd.
        -- constructor. by apply klt_asym.
    + constructor; [done|]. by constructor.
Qed.

Lemma sorted_in_order (l : list A) : Sorted (in_order key klt) (sorted key klt l).
Proof.
  induction l as [|x l IH]; simpl; [constructor|].
  by apply insert_sorted_in_order.
Qed.
End SortedFacts.

Lemma lt_asym (a b : string) : Str.lt a b = true → Str.lt b a = false.
Proof.
  unfold Str.lt, String.ltb. rewrite (String.compare_antisym b a).
  by destruct (String.compare a b).
Qed.

(** What [sorted(lines, key=str.lower)] does order: the raw lines. *)
Lemma lines_sorted_by_lowered_line (lines : list string) :
  Sorted (in_order Str.lower Str.lt) (sorted Str.lower Str.lt lines)
  ∧ sorted Str.lower Str.lt lines ≡ₚ lines.
Proof.
  split; [apply sorted_in_order, lt_asym | apply sorted_perm].
Qed.

(** ** The listing parser *)

Lemma parse_line_short (line : string) :
  ¬ long line → parse_line line = Ok None.
Proof.
  unfold long, parse_line. intros Hlen.
  destruct (decide (length (Str.split line) < 9)); [done|lia].
Qed.

Lemma parse_line_long (line : string) :
  long line →
  ∃ size,
    Str.split line !! 4 = Some size
    ∧ parse_line line
      = Ok (Some (Item (Str.join " " (drop 8 (Str.split line)))
                    (if Str.startswith line "d" then "Directorio" else "Archivo")
                    (if Str.startswith line "d" then "" else size)
                    (Str.startswith line "d"))).
Proof.
  unfold long, parse_line. intros Hlen.
  destruct (lookup_lt_is_Some_2 (Str.split line) 4) as [sz Hsz]; [lia|].
  exists sz. split; [done|].
  destruct (decide (length (Str.split line) < 9)); [lia|].
  unfold getitem. rewrite Hsz. by destruct (Str.startswith line "d").
Qed.

(** The loop appends one entry for each long line, in the order it visits
    them, and cannot raise. *)
Lemma parse_loop_entries (lines : list string) (items : list item) :
  ∃ new,
    parse_loop items lines = Ok (items ++ new)
    ∧ Forall2 (λ line it, parse_line line = Ok (Some it)) (filter long lines) new.
Proof.
  revert items. induction lines as [|line rest IH]; intros items; simpl.
  - exists []. by rewrite app_nil_r.
  - destruct (decide (long line)) as [Hl|Hl].
    + destruct (parse_line_long line Hl) as (sz & _ & Heq). rewrite Heq.
      destruct (IH (items ++ [Item (Str.join " " (drop 8 (Str.split line)))
                      (if Str.startswith line "d" then "Directorio" else "Archivo")
                      (if Str.startswith line "d" then "" else sz)
                      (Str.startswith line "d")])) as (new & -> & Hnew).
      eexists (_ :: new). rewrite <- app_assoc. split; [done|].
      rewrite filter_cons_True by done. by constructor.
    + rewrite (parse_line_short line Hl).
      destruct (IH items) as (new & -> & Hnew).
      exists new. split; [done|]. by rewrite filter_cons_False.
Qed.

(** ** The service, over any ftplib *)
Section ServiceFacts.
Context {Handle Net : Type} `{!FtpLib Handle Net}.
Implicit Types (w : World Handle Net) (h : Handle) (n : Net).

Lemma is_connected_Some w h : ftp w = Some h → is_connected w = true.
Proof. unfold is_connected. intros ->. by apply bool_decide_eq_true. Qed.

Lemma is_connected_None w : ftp w = None → is_connected w = false.
Proof. unfold is_connected. intros ->. by apply bool_decide_eq_false; intros []. Qed.

(** a failure to reach the host leaves [self.ftp] as it was *)
Lemma connect_unreachable host user password timeout w e n1 :
  ftp_new host timeout (net w) = (Raise e, n1) →
  connect host user password timeout w = (Raise e, with_net n1 w).
Proof. intros Hnew. run. by rewrite Hnew. Qed.

(** a refused login leaves the new [FTP] object in [self.ftp] *)
Lemma connect_login_refused host user password timeout w h e n1 n2 :
  ftp_new host timeout (net w) = (Ok h, n1) →
  ftp_login h user password n1 = (Raise e, n2) →
  connect host user password timeout w
  = (Raise e, {| ftp := Some h; net := n2; disk := disk w |}).
Proof. intros Hnew Hlogin. run. rewrite Hnew. simpl. by rewrite Hlogin. Qed.

(** the blocks of a download are appended to the file in order, and
    nothing else changes *)
Lemma each_write path (blocks : list bytes) w content :
  files (disk w) !! path = Some content →
  ∃ w', each (write path) blocks w = (Ok (), w')
    ∧ ftp w' = ftp w ∧ net w' = net w
    ∧ refused (disk w') = refused (disk w)
    ∧ files (disk w') !! path = Some (content ++ concat blocks)
    ∧ ∀ p, p ≠ path → files (disk w') !! p = files (disk w) !! p.
Proof.
  revert w content. induction blocks as [|b blocks IH]; intros w content Hc.
  - exists w. simpl. by rewrite app_nil_r.
  - simpl. run. unfold write at 1. rewrite Hc. simpl.
    edestruct IH as (w' & -> & ? & ? & ? & Hw' & Hother); last first.
    { exists w'. repeat split; try done.
      - by rewrite Hw', <- app_assoc.
      - intros p Hp. rewrite Hother by done. simpl. by rewrite lookup_insert_ne. }
    simpl. by rewrite lookup_insert_eq.
Qed.

(** C7: when the host is reached and the login is accepted, [connect]
    returns the reply that accepted the login, and the service is
    connected (it holds the new [FTP] object). *)
Theorem connect_returns_acceptance host user password timeout w h n1 msg n2 :
  ftp_new host timeout (net w) = (Ok h, n1) →
  ftp_login h user password n1 = (Ok msg, n2) →
  ∃ w', connect host user password timeout w = (Ok msg, w')
    ∧ is_connected w' = true
    ∧ w' = {| ftp := Some h; net := n2; disk := disk w |}.
Proof.
  intros Hnew Hlogin. eexists. split; [|split; [|reflexivity]].
  - run. rewrite Hnew. simpl. by rewrite Hlogin.
  - by eapply is_connected_Some.
Qed.

(** C3, as the code has it: [disconnect] on a service that holds no
    connection returns at once and changes nothing; on a connected service
    it sends QUIT, once, the network being left as QUIT left it and the
    local disk as it was: when QUIT returns [disconnect] returns and has
    cleared [self.ftp], when QUIT raises [disconnect] raises the same
    error; whenever [disconnect] returns, the service is disconnected, and
    a second [disconnect] then returns too and changes nothing. *)
Theorem disconnect_clears_when_quit_returns w r w' :
  disconnect w = (r, w') →
  (ftp w = None → r = Ok () ∧ w' = w)
  ∧ (∀ h rq n1,
       ftp w = Some h → ftp_quit h (net w) = (rq, n1) →
       net w' = n1 ∧ disk w' = disk w
       ∧ match rq with
         | Ok _ => r = Ok () ∧ ftp w' = None
         | Raise e => r = Raise e
         end)
  ∧ (r = Ok () → is_connected w' = false ∧ disconnect w' = (Ok (), w')).
Proof.
  unfold disconnect. run. destruct w as [[h|] n d]; simpl.
  - destruct (ftp_quit h n) as [[msg|e] n'] eqn:Hquit; simpl;
      intros [= <- <-]; (split; [done|]); (split; [|done]);
      intros h' rq n1 [= <-]; rewrite Hquit; by intros [= <- <-].
  - intros [= <- <-]. by repeat split.
Qed.

(** C2, as the code has it: without a connection [list_directory] raises
    AttributeError and touches nothing; [upload_file] and [download_file]
    open the local file first and raise what [open] raises, or else the
    same AttributeError, [download_file] having emptied the local file by
    then. No command reaches the network, and none of the three raises
    NotConnectedError or returns. *)
Theorem data_operations_need_a_handle w path local_path remote_name :
  ftp w = None →
  list_directory path w = (Raise (no_attribute "cwd"), w)
  ∧ upload_file local_path remote_name w
    = match open_rb local_path w with
      | (Ok _, _) => (Raise (no_attribute "storbinary"), w)
      | (Raise e, _) => (Raise e, w)
      end
  ∧ download_file remote_name local_path w
    = match open_wb local_path w with
      | (Ok _, w1) => (Raise (no_attribute "retrbinary"), w1)
      | (Raise e, _) => (Raise e, w)
      end
  ∧ ∀ e w',
      (list_directory path w = (Raise e, w')
       ∨ upload_file local_path remote_name w = (Raise e, w')
       ∨ download_file remote_name local_path w = (Raise e, w')) →
      exn_class e ≠ "NotConnectedError" ∧ net w' = net w ∧ ftp w' = None.
Proof.
  intros Hftp.
  assert (Hl : list_directory path w = (Raise (no_attribute "cwd"), w)).
  { run. by rewrite Hftp. }
  assert (Hu : upload_file local_path remote_name w
    = match open_rb local_path w with
      | (Ok _, _) => (Raise (no_attribute "storbinary"), w)
      | (Raise e, _) => (Raise e, w)
      end).
  { run. destruct (decide _); [done|].
    destruct (files (disk w) !! local_path); [|done]. by rewrite Hftp. }
  assert (Hd : download_file remote_name local_path w
    = match open_wb local_path w with
      | (Ok _, w1) => (Raise (no_attribute "retrbinary"), w1)
      | (Raise e, _) => (Raise e, w)
      end).
  { run. destruct (decide _); [done|]. simpl. by rewrite Hftp. }
  do 3 (split; [done|]). intros e w' He.
  rewrite Hl, Hu, Hd in He. revert He. unfold open_rb, open_wb.
  destruct (decide _); [|destruct (files (disk w) !! local_path)];
    intros [He|[He|He]]; simplify_eq/=; done.
Qed.

End ServiceFacts.

Section Transfers.
Context {Handle Net : Type} `{!FtpLib Handle Net}.
Implicit Types (w : World Handle Net) (h : Handle) (n : Net).

(** what [download_file] does once the local file is open *)
Lemma download_file_run w h remote_name local_path blocks r n1 :
  ftp w = Some h →
  local_path ∉ refused (disk w) →
  ftp_retrbinary h ("RETR " +:+ remote_name) (net w) = ((blocks, r), n1) →
  ∃ w', download_file remote_name local_path w
        = (match r with Ok _ => Ok () | Raise e => Raise e end, w')
    ∧ ftp w' = Some h ∧ net w' = n1
    ∧ refused (disk w') = refused (disk w)
    ∧ files (disk w') !! local_path = Some (concat blocks)
    ∧ ∀ p, p ≠ local_path → files (disk w') !! p = files (disk w) !! p.
Proof.
  intros Hftp Hfree Hretr. run.
  destruct (decide _); [done|]. simpl. rewrite Hftp. simpl.
  rewrite Hretr. simpl.
  destruct (each_write local_path blocks
              {| ftp := Some h; net := n1;
                 disk := {| files := <[local_path:=[]]> (files (disk w));
                            refused := refused (disk w) |} |} [])
    as (w' & -> & ? & ? & ? & Hw' & Ho); [simpl; apply lookup_insert_eq|].
  exists w'. simpl in *.
  destruct r; simpl; (do 5 (split; [congruence|]));
    intros p Hp; rewrite Ho by done; by rewrite lookup_insert_ne.
Qed.

(** a refused [open] ends [download_file] before anything is sent *)
Lemma download_file_refused w remote_name local_path :
  local_path ∈ refused (disk w) →
  download_file remote_name local_path w = (Raise (Exn "OSError" local_path), w).
Proof. intros Hin. run. by destruct (decide _). Qed.

Lemma upload_file_run w h local_path remote_name data r n1 :
  ftp w = Some h →
  local_path ∉ refused (disk w) →
  files (disk w) !! local_path = Some data →
  ftp_storbinary h ("STOR " +:+ remote_name) data (net w) = (r, n1) →
  upload_file local_path remote_name w
  = (match r with Ok _ => Ok () | Raise e => Raise e end, with_net n1 w).
Proof.
  intros Hftp Hfree Hdata Hstor. run.
  destruct (decide _); [done|]. rewrite Hdata, Hftp. simpl.
  rewrite Hstor, Hftp. by destruct r.
Qed.

(** C8: a file that is uploaded and then downloaded to another path comes
    back with the same bytes, the server handing out in its blocks what
    was stored; the uploaded file itself is untouched. *)
Theorem upload_then_download_roundtrip
    w h local_path remote_name dest data r1 n1 blocks r2 n2 :
  ftp w = Some h →
  local_path ∉ refused (disk w) →
  files (disk w) !! local_path = Some data →
  ftp_storbinary h ("STOR " +:+ remote_name) data (net w) = (Ok r1, n1) →
  dest ∉ refused (disk w) →
  ftp_retrbinary h ("RETR " +:+ remote_name) n1 = ((blocks, Ok r2), n2) →
  concat blocks = data →
  ∃ w1 w2,
    upload_file local_path remote_name w = (Ok (), w1)
    ∧ download_file remote_name dest w1 = (Ok (), w2)
    ∧ files (disk w2) !! dest = Some data
    ∧ (dest ≠ local_path → files (disk w2) !! local_path = Some data).
Proof.
  intros Hftp Hfree Hdata Hstor Hdest Hretr Hsame.
  exists (with_net n1 w).
  rewrite (upload_file_run w h local_path remote_name data (Ok r1) n1) by done.
  destruct (download_file_run (with_net n1 w) h remote_name dest blocks (Ok r2) n2)
    as (w2 & Hdown & _ & _ & _ & Hw2 & Hother); [done..|].
  exists w2. rewrite Hw2, Hsame. do 3 (split; [done|]).
  intros Hne. by rewrite Hother.
Qed.

(** C10: the local file is opened before RETR is sent, so a download that
    fails on the remote side leaves at the local path only the blocks
    that had arrived, none when the server refused at once, whatever the
    file held before. *)
Theorem failed_download_truncates w h remote_name local_path blocks e n1 :
  ftp w = Some h →
  local_path ∉ refused (disk w) →
  ftp_retrbinary h ("RETR " +:+ remote_name) (net w) = ((blocks, Raise e), n1) →
  ∃ w', download_file remote_name local_path w = (Raise e, w')
    ∧ files (disk w') !! local_path = Some (concat blocks)
    ∧ (blocks = [] → files (disk w') !! local_path = Some []).
Proof.
  intros Hftp Hfree Hretr.
  destruct (download_file_run w h remote_name local_path blocks (Raise e) n1)
    as (w' & Hdown & _ & _ & _ & Hw' & _); [done..|].
  exists w'. do 2 (split; [done|]). intros ->. by rewrite Hw'.
Qed.

(** C9: on a connected service [list_directory] sends CWD for the path
    before anything else; PWD is asked of the network as CWD left it and
    its answer is the path returned; LIST comes last, and the network is
    handed back as LIST left it, nothing being sent to undo the change of
    directory. An error of any of the three ends the call there. *)
Theorem list_directory_changes_directory w h path :
  ftp w = Some h →
  ∃ r1 n1,
    ftp_cwd h path (net w) = (r1, n1)
    ∧ match r1 with
      | Raise e => list_directory path w = (Raise e, with_net n1 w)
      | Ok _ =>
          ∃ r2 n2,
            ftp_pwd h n1 = (r2, n2)
            ∧ match r2 with
              | Raise e => list_directory path w = (Raise e, with_net n2 w)
              | Ok current_path =>
                  ∃ r3 n3,
                    ftp_dir h n2 = (r3, n3)
                    ∧ match r3 with
                      | Raise e =>
                          list_directory path w = (Raise e, with_net n3 w)
                      | Ok lines =>
                          ∃ items,
                            parse_listing lines = Ok items
                            ∧ list_directory path w
                              = (Ok (current_path, items), with_net n3 w)
                      end
              end
      end.
Proof.
  destruct w as [o n d]. simpl. intros ->. unfold with_net. run.
  destruct (ftp_cwd h path n) as [[r1|e1] n1]; simpl;
    eexists _, _; (split; [reflexivity|]); [|done].
  destruct (ftp_pwd h n1) as [[current_path|e2] n2]; simpl;
    eexists _, _; (split; [reflexivity|]); [|done].
  destruct (ftp_dir h n2) as [[lines|e3] n3]; simpl;
    eexists _, _; (split; [reflexivity|]); [|done].
  unfold parse_listing.
  destruct (parse_loop_entries (sorted Str.lower Str.lt lines) [])
    as (items & -> & _).
  by exists items.
Qed.

End Transfers.

(** ** The entries of a listing *)

(** C5: the loop never raises; a line with fewer than 9 words adds nothing,
    and the entries stand one for one, in order, for the lines with 9 words
    or more, which are those of the input in another order. *)
Theorem short_lines_are_skipped (lines : list string) :
  ∃ items,
    parse_listing lines = Ok items
    ∧ Forall2 (λ line it, parse_line line = Ok (Some it))
        (filter long (sorted Str.lower Str.lt lines)) items
    ∧ filter long (sorted Str.lower Str.lt lines) ≡ₚ filter long lines
    ∧ length items = length (filter long lines)
    ∧ ∀ line, ¬ long line → parse_line line = Ok None.
Proof.
  unfold parse_listing.
  destruct (parse_loop_entries (sorted Str.lower Str.lt lines) [])
    as (items & -> & Hitems).
  assert (Hperm : filter long (sorted Str.lower Str.lt lines) ≡ₚ filter long lines).
  { apply filter_Permutation, sorted_perm. }
  exists items. repeat split; try done.
  - by rewrite <- (Forall2_length _ _ _ Hitems), Hperm.
  - apply parse_line_short.
Qed.

(** C6, as the code has it: a line with 9 words or more gives an entry that
    is a directory exactly when the line itself starts with [d], which is
    the first character of the permission string unless the line starts
    with a blank; its size is the 5th word for a file and empty for a
    directory, and its name is the words from the 9th on joined by single
    spaces. *)
Theorem entry_fields (line : string) :
  long line →
  ∃ it,
    parse_line line = Ok (Some it)
    ∧ is_dir it = Str.startswith line "d"
    ∧ (∀ c rest, line = String c rest → Str.isspace c = false →
       ∃ permissions, Str.split line !! 0 = Some permissions
         ∧ is_dir it = Str.startswith permissions "d")
    ∧ type it = (if is_dir it then "Directorio" else "Archivo")
    ∧ (if is_dir it then size it = "" else Str.split line !! 4 = Some (size it))
    ∧ name it = Str.join " " (drop 8 (Str.split line)).
Proof.
  intros Hlong. destruct (parse_line_long line Hlong) as (sz & Hsz & ->).
  eexists. split; [reflexivity|]. simpl. repeat split.
  - intros c rest -> Hc.
    destruct (split_first_word c rest Hc) as (suffix & words & ->).
    by eexists.
  - by destruct (Str.startswith line "d").
Qed.

(** ** The service in front of the test double *)

Module Scenario.
Import Double.

(** C1: the listing holds the directory [apps] and the file [zebra.txt];
    [list_directory] returns [zebra.txt] first, because it sorts the raw
    lines and [-] is smaller than [d]: the entries are not sorted by
    name. *)
Theorem list_directory_sorts_raw_lines :
  let w := connected (server_of "230 Logged in" "221 Goodbye" apps_and_zebra)
             empty_disk in
  fst (list_directory "/" w)
  = Ok ("/", [ Item "zebra.txt" "Archivo" "120" false;
               Item "apps" "Directorio" "" true ])
  ∧ sorted_by_name [ Item "zebra.txt" "Archivo" "120" false;
                     Item "apps" "Directorio" "" true ] = false.
Proof. split; vm_compute; reflexivity. Qed.

(** C4: the server greets and then refuses the password; [connect] raises
    what ftplib raised, and [is_connected] is true, the [FTP] object
    having been stored before the login. *)
Theorem connect_refused_login_keeps_handle :
  let w := connect "ftp.example.com" "alice" "wrong" 10
             (fresh (server_of "530 Login incorrect" "221 Goodbye" scenario_lines)
                empty_disk) in
  fst w = Raise (Exn "error_perm" "530 Login incorrect")
  ∧ is_connected (snd w) = true.
Proof. split; vm_compute; reflexivity. Qed.

(** C2 refuted: before [connect], [list_directory] raises AttributeError,
    which is not NotConnectedError. *)
Lemma list_directory_before_connect :
  ∃ e, fst (list_directory "/" (fresh server empty_disk)) = Raise e
    ∧ exn_class e = "AttributeError"
    ∧ exn_class e ≠ "NotConnectedError".
Proof. eexists. split; [reflexivity|]. split; [reflexivity|discriminate]. Qed.

(** C3 refuted: the server answers QUIT with 421; [disconnect] raises and
    the service is still connected, the second time as the first. *)
Lemma disconnect_raises_when_quit_fails :
  let w := connected (server_of "230 Logged in" "421 Timeout" scenario_lines)
             empty_disk in
  fst (disconnect w) = Raise (Exn "error_temp" "421 Timeout")
  ∧ is_connected (snd (disconnect w)) = true
  ∧ fst (disconnect (snd (disconnect w))) = Raise (Exn "error_temp" "421 Timeout")
  ∧ is_connected (snd (disconnect (snd (disconnect w)))) = true.
Proof. repeat split; vm_compute; reflexivity. Qed.

(** C6 refuted: the permission string of this line starts with [d], the
    line starts with a blank, and the entry is a file with a size. *)
Lemma indented_directory_is_a_file :
  ∃ permissions rest,
    Str.split indented = permissions :: rest
    ∧ 9 ≤ length (permissions :: rest)
    ∧ Str.startswith permissions "d" = true
    ∧ parse_line indented = Ok (Some (Item "docs" "Archivo" "4096" false)).
Proof.
  eexists _, _. split; [vm_compute; reflexivity|].
  split; [simpl; lia|]. split; reflexivity.
Qed.

(** *** The theorems at work *)

(** the connect scenario: 220, 331, 230 *)
Lemma connect_scenario_accepted :
  ftp_new "ftp.example.com" 10 server = (Ok (), server)
  ∧ ∃ w', connect "ftp.example.com" "alice" "secret" 10 (fresh server empty_disk)
          = (Ok "230 Logged in", w')
       ∧ is_connected w' = true
       ∧ w' = {| ftp := Some (); disk := empty_disk;
                 net := snd (login () "alice" "secret" server) |}.
Proof.
  split; [reflexivity|].
  apply (connect_returns_acceptance "ftp.example.com" "alice" "secret" 10
           (fresh server empty_disk) () server "230 Logged in"
           (snd (login () "alice" "secret" server)));
    reflexivity.
Defined.

(** QUIT answered with 221: sent once, disconnected, twice *)
Lemma disconnect_scenario :
  let w := connected server empty_disk in
  fst (disconnect w) = Ok ()
  ∧ is_connected (snd (disconnect w)) = false
  ∧ disconnect (snd (disconnect w)) = (Ok (), snd (disconnect w))
  ∧ net (snd (disconnect w)) = receive "QUIT" (net w)
  ∧ ftp (snd (disconnect w)) = None.
Proof.
  intros w.
  destruct (disconnect_clears_when_quit_returns w (fst (disconnect w))
              (snd (disconnect w)) (surjective_pairing _))
    as (_ & Hquit & Hclear).
  destruct (Hquit () (Ok "221 Goodbye") (receive "QUIT" (net w))
              eq_refl eq_refl) as (Hnet & _ & Hr & Hftp).
  split; [exact Hr|].
  destruct (Hclear Hr) as (Hdis & Hagain).
  repeat split; assumption.
Defined.

(** a fresh service: the three operations fail on [None] *)
Lemma fresh_service_has_no_handle :
  let w := fresh server home in
  ftp w = None
  ∧ list_directory "/" w = (Raise (no_attribute "cwd"), w)
  ∧ fst (upload_file "/home/alice/notes.txt" "notes.txt" w)
    = Raise (no_attribute "storbinary")
  ∧ fst (download_file "notes.txt" "/home/alice/notes.txt" w)
    = Raise (no_attribute "retrbinary").
Proof.
  intros w.
  destruct (data_operations_need_a_handle w "/" "/home/alice/notes.txt"
              "notes.txt" eq_refl) as (Hl & Hu & _).
  destruct (data_operations_need_a_handle w "/" "/home/alice/notes.txt"
              "notes.txt" eq_refl) as (_ & _ & Hd & _).
  split; [reflexivity|]. split; [exact Hl|].
  split; [rewrite Hu | rewrite Hd]; reflexivity.
Defined.

(** the directory line of the listing scenario *)
Lemma docs_entry :
  long "drwxr-xr-x 2 u g 4096 Jan 1 00:00 docs"
  ∧ parse_line "drwxr-xr-x 2 u g 4096 Jan 1 00:00 docs"
    = Ok (Some (Item "docs" "Directorio" "" true)).
Proof.
  assert (Hlong : long "drwxr-xr-x 2 u g 4096 Jan 1 00:00 docs").
  { unfold long. vm_compute. lia. }
  split; [exact Hlong|].
  destruct (entry_fields _ Hlong) as ([nm ty sz d] & -> & Hd & _ & Hty & Hsz & Hnm).
  simpl in *. subst d ty nm. vm_compute in Hsz. by subst sz.
Defined.

(** the summary line of the listing scenario *)
Lemma total_line_skipped : parse_line "total 8" = Ok None.
Proof.
  destruct (short_lines_are_skipped scenario_lines) as (items & _ & _ & _ & _ & Hshort).
  apply Hshort. unfold long. vm_compute. lia.
Defined.

(** [notes.txt] goes up and comes back as [copy.txt] *)
Lemma notes_roundtrip :
  let w := connected server home in
  ∃ w1 w2,
    upload_file "/home/alice/notes.txt" "notes.txt" w = (Ok (), w1)
    ∧ download_file "notes.txt" "/home/alice/copy.txt" w1 = (Ok (), w2)
    ∧ files (disk w2) !! "/home/alice/copy.txt" = Some hello
    ∧ ("/home/alice/copy.txt" ≠ "/home/alice/notes.txt" →
       files (disk w2) !! "/home/alice/notes.txt" = Some hello).
Proof.
  intros w.
  eapply (upload_then_download_roundtrip w () "/home/alice/notes.txt"
            "notes.txt" "/home/alice/copy.txt" hello);
    [reflexivity | apply not_elem_of_empty | reflexivity | reflexivity
    | apply not_elem_of_empty | vm_compute; reflexivity | reflexivity].
Defined.

(** RETR of an object the server does not have empties [notes.txt] *)
Lemma missing_object_empties_local_file :
  let w := connected server home in
  files (disk w) !! "/home/alice/notes.txt" = Some hello
  ∧ ∃ w', download_file "nothing" "/home/alice/notes.txt" w
          = (Raise (Exn "error_perm" "550 No such file"), w')
       ∧ files (disk w') !! "/home/alice/notes.txt" = Some [].
Proof.
  intros w. split; [reflexivity|].
  destruct (failed_download_truncates w () "nothing" "/home/alice/notes.txt" []
              (Exn "error_perm" "550 No such file")
              (receive "RETR nothing" (net w)))
    as (w' & Hdown & _ & Hempty);
    [reflexivity | apply not_elem_of_empty | reflexivity |].
  exists w'. split; [exact Hdown | by apply Hempty].
Defined.

(** listing [/docs] leaves the session in [/docs] *)
Lemma listing_docs_moves_session :
  let w := connected server empty_disk in
  wd (net w) = "/"
  ∧ ∃ w', list_directory "/docs" w = (Ok ("/docs", []), w')
       ∧ wd (net w') = "/docs"
       ∧ seen (net w') = seen (net w) ++ ["CWD /docs"; "PWD"; "LIST"].
Proof.
  intros w. split; [reflexivity|].
  destruct (list_directory_changes_directory w () "/docs" eq_refl)
    as (r1 & n1 & H1 & H).
  vm_compute in H1. injection H1 as <- <-.
  destruct H as (r2 & n2 & H2 & H).
  vm_compute in H2. injection H2 as <- <-.
  destruct H as (r3 & n3 & H3 & H).
  vm_compute in H3. injection H3 as <- <-.
  destruct H as (items & Hitems & H).
  vm_compute in Hitems. injection Hitems as <-.
  eexists. split; [exact H|]. split; reflexivity.
Defined.

End Scenario.


(** * More of the code *)

(** ** Words and names *)

Lemma no_blank_snoc (s : string) (c : ascii) :
  no_blank (s +:+ String c "") = no_blank s && negb (Str.isspace c).
Proof.
  induction s as [|a s IH].
  - change ("" +:+ String c "") with (String c ""). simpl.
    by rewrite andb_true_r.
  - change (String a s +:+ String c "") with (String a (s +:+ String c "")).
    simpl. by rewrite IH, andb_assoc.
Qed.

Lemma split_from_words (s tok : string) :
  tok = "" ∨ word tok → Forall word (Str.split_from tok s).
Proof.
  revert tok. induction s as [|c s IH]; intros tok Htok; simpl.
  - destruct (decide (tok = "")); [constructor|].
    destruct Htok as [?|?]; [done|]. constructor; [done|constructor].
  - destruct (Str.isspace c) eqn:Hc.
    + destruct (decide (tok = "")); [by apply IH; left|].
      destruct Htok as [?|?]; [done|]. constructor; [done|]. by apply IH; left.
    + apply IH. right. split; [by destruct tok|].
      rewrite no_blank_snoc, Hc.
      destruct Htok as [->|[_ ->]]; reflexivity.
Qed.

Lemma split_words (s : string) : Forall word (Str.split s).
Proof. apply split_from_words. by left. Qed.

(** a word in front of the text goes into the token being read *)
Lemma split_from_word (t tok s : string) :
  no_blank t = true →
  Str.split_from tok (t +:+ s) = Str.split_from (tok +:+ t) s.
Proof.
  revert tok. induction t as [|c t IH]; intros tok Ht.
  - change ("" +:+ s) with s. by rewrite append_empty.
  - simpl in Ht. apply andb_true_iff in Ht as [Hc Ht].
    apply negb_true_iff in Hc.
    change (String c t +:+ s) with (String c (t +:+ s)). simpl.
    rewrite Hc, IH by done. by rewrite append_snoc.
Qed.

Lemma split_join (l : list string) :
  Forall word l → Str.split (Str.join " " l) = l.
Proof.
  unfold Str.split. induction 1 as [|x l [Hx Hb] Hl IH]; [reflexivity|].
  destruct l as [|y l].
  - simpl. rewrite <- (append_empty x) at 1. rewrite split_from_word by done.
    change ("" +:+ x) with x. simpl. by destruct (decide (x = "")).
  - change (Str.join " " (x :: y :: l))
      with (x +:+ String " " (Str.join " " (y :: l))).
    rewrite split_from_word by done. change ("" +:+ x) with x.
    simpl Str.split_from at 1.
    change (Str.isspace " ") with true. simpl.
    destruct (decide (x = "")); [done|]. f_equal. exact IH.
Qed.

(** X1: a name is the words of the line from the 9th on, joined with one
    space between them, whatever whitespace stood between them in the
    line; splitting the name gives these words back. *)
Theorem name_keeps_the_words (line : string) (it : item) :
  parse_line line = Ok (Some it) →
  name it = Str.join " " (drop 8 (Str.split line))
  ∧ Str.split (name it) = drop 8 (Str.split line).
Proof.
  intros Hit. destruct (decide (long line)) as [Hl|Hl].
  - destruct (parse_line_long line Hl) as (sz & _ & Heq).
    rewrite Heq in Hit. injection Hit as <-. simpl. split; [done|].
    apply split_join, Forall_drop, split_words.
  - by rewrite parse_line_short in Hit.
Qed.

(** ** The order of a listing *)

Lemma not_lt_leb (a b : string) :
  Str.lt b a = false ↔ String.leb a b = true.
Proof.
  unfold Str.lt, String.ltb, String.leb.
  rewrite (String.compare_antisym a b).
  by destruct (String.compare b a).
Qed.

Global Instance in_order_trans {A} (key : A → string) :
  Transitive (in_order key Str.lt).
Proof.
  intros a b c. unfold in_order. rewrite !not_lt_leb. intros Hab Hbc.
  apply Is_true_true. apply Is_true_true in Hab, Hbc.
  exact (transitivity (R := String.le) Hab Hbc).
Qed.

Lemma StronglySorted_filter {A} (R : relation A) (P : A → Prop)
    `{∀ x, Decision (P x)} (l : list A) :
  StronglySorted R l → StronglySorted R (filter P l).
Proof.
  induction 1 as [|x l Hl IH Hx]; [constructor|].
  rewrite filter_cons. destruct (decide (P x)); [|done].
  constructor; [done|].
  apply Forall_forall. intros y [_ Hy]%list_elem_of_filter.
  by eapply Forall_forall in Hx.
Qed.

Lemma StronglySorted_nondecreasing {A} (key : A → string) (l : list A) :
  StronglySorted (in_order key Str.lt) l →
  nondecreasing Str.lt (key <$> l) = true.
Proof.
  induction 1 as [|x l Hl IH Hx]; [reflexivity|].
  destruct l as [|y l]; [reflexivity|].
  change (negb (Str.lt (key y) (key x)) && nondecreasing Str.lt (key <$> y :: l) = true).
  rewrite IH, andb_true_r. apply negb_true_iff.
  by inversion Hx.
Qed.

Lemma sorted_strongly {A} (key : A → string) (l : list A) :
  StronglySorted (in_order key Str.lt) (sorted key Str.lt l).
Proof.
  apply Sorted_StronglySorted.
  - intros a b c. apply in_order_trans.
  - apply sorted_in_order, lt_asym.
Qed.

Lemma parse_listing_kept (lines : list string) :
  ∃ kept items,
    parse_listing lines = Ok items
    ∧ Forall2 (λ line it, parse_line line = Ok (Some it)) kept items
    ∧ kept ≡ₚ filter long lines
    ∧ StronglySorted (in_order Str.lower Str.lt) kept.
Proof.
  unfold parse_listing.
  destruct (parse_loop_entries (sorted Str.lower Str.lt lines) [])
    as (items & -> & Hitems).
  exists (filter long (sorted Str.lower Str.lt lines)), items.
  repeat split; [done| |].
  - apply filter_Permutation, sorted_perm.
  - apply StronglySorted_filter, sorted_strongly.
Qed.

(** X2: the entries come in the order of their raw lines compared as whole
    lines without regard to case: the line of an entry is never greater
    than the line of any later entry. *)
Theorem entries_follow_sorted_lines (lines : list string) :
  ∃ kept items,
    parse_listing lines = Ok items
    ∧ Forall2 (λ line it, parse_line line = Ok (Some it)) kept items
    ∧ kept ≡ₚ filter long lines
    ∧ StronglySorted (in_order Str.lower Str.lt) kept.
Proof. apply parse_listing_kept. Qed.

Section Stable.
Context {A K : Type} `{EqDecision K} (key : A → K) (klt : K → K → bool).
Hypothesis klt_irrefl : ∀ k, klt k k = false.

Lemma insert_sorted_stable (k : K) (x : A) (l : list A) :
  filter (λ y, key y = k) (insert_sorted key klt x l)
  = filter (λ y, key y = k) (x :: l).
Proof.
  induction l as [|y l IH]; [done|]. simpl.
  destruct (klt (key y) (key x)) eqn:Hyx; [|done].
  rewrite (filter_cons _ y), IH, !filter_cons.
  destruct (decide (key y = k)) as [Hy|Hy], (decide (key x = k)) as [Hx|Hx];
    try done.
  rewrite Hy, Hx, klt_irrefl in Hyx. done.
Qed.

Lemma sorted_stable (k : K) (l : list A) :
  filter (λ y, key y = k) (sorted key klt l) = filter (λ y, key y = k) l.
Proof.
  induction l as [|x l IH]; [done|]. simpl.
  by rewrite insert_sorted_stable, !filter_cons, IH.
Qed.
End Stable.

Lemma lt_irrefl (a : string) : Str.lt a a = false.
Proof.
  destruct (Str.lt a a) eqn:H; [|done]. by rewrite (lt_asym a a H) in H.
Qed.

(** X3: lines that are equal up to the case of their letters leave the sort
    in the order in which the server sent them. *)
Theorem equal_lines_keep_server_order (lines : list string) (k : string) :
  filter (λ line, Str.lower line = k) (sorted Str.lower Str.lt lines)
  = filter (λ line, Str.lower line = k) lines.
Proof. apply sorted_stable, lt_irrefl. Qed.

Lemma entries_of_lines (kept : list string) (items : list item) :
  Forall2 (λ line it, parse_line line = Ok (Some it)) kept items →
  parse_line <$> kept = (λ it, Ok (Some it)) <$> items.
Proof.
  induction 1 as [|line it kept items Hit _ IH]; [done|].
  by rewrite !fmap_cons, Hit, IH.
Qed.

(** X4: the server may send the lines in any order: the same entries come
    back, each as often. *)
Theorem entries_do_not_depend_on_server_order (lines1 lines2 : list string) :
  lines1 ≡ₚ lines2 →
  ∃ items1 items2,
    parse_listing lines1 = Ok items1
    ∧ parse_listing lines2 = Ok items2
    ∧ items1 ≡ₚ items2.
Proof.
  intros Hperm.
  destruct (parse_listing_kept lines1) as (kept1 & items1 & H1 & F1 & P1 & _).
  destruct (parse_listing_kept lines2) as (kept2 & items2 & H2 & F2 & P2 & _).
  exists items1, items2. do 2 (split; [done|]).
  assert (Hkept : kept1 ≡ₚ kept2) by (by rewrite P1, P2, Hperm).
  apply (fmap_Permutation parse_line) in Hkept.
  rewrite (entries_of_lines _ _ F1), (entries_of_lines _ _ F2) in Hkept.
  apply Permutation_map_inv in Hkept as (items3 & Heq & Hperm3).
  assert (Hinj : Inj (=) (=) (λ it : item, @Ok (option item) (Some it)))
    by (by intros ?? [=]).
  change (map ?f ?l) with (f <$> l) in Heq.
  apply (inj (fmap _)) in Heq as ->. by symmetry.
Qed.

(** ** What the methods leave alone *)
Section Frames.
Context {Handle Net : Type} `{!FtpLib Handle Net}.
Implicit Types (w : World Handle Net) (h : Handle) (n : Net).

(** X5: [list_directory] never changes [self.ftp] nor the local disk, whether
    it returns or raises. *)
Theorem list_directory_keeps_service_and_disk path w :
  ftp (snd (list_directory path w)) = ftp w
  ∧ disk (snd (list_directory path w)) = disk w.
Proof.
  destruct w as [[h|] n d]; run; [|done].
  destruct (ftp_cwd h path n) as [[?|?] n1]; simpl; [|done].
  destruct (ftp_pwd h n1) as [[?|?] n2]; simpl; [|done].
  destruct (ftp_dir h n2) as [[lines|?] n3]; simpl; [|done].
  by destruct (parse_listing lines).
Qed.

(** X6: [upload_file] never changes [self.ftp] nor the local disk, whether it
    returns or raises. *)
Theorem upload_file_keeps_service_and_disk local_path remote_name w :
  ftp (snd (upload_file local_path remote_name w)) = ftp w
  ∧ disk (snd (upload_file local_path remote_name w)) = disk w.
Proof.
  destruct w as [o n d]; run.
  destruct (decide _); [done|].
  destruct (files d !! local_path) as [data|]; [|done].
  destruct o as [h|]; simpl; [|done].
  by destruct (ftp_storbinary h _ data n) as [[?|?] n1].
Qed.

(** X7: a local file that is missing, or that [open] refuses, ends
    [upload_file] with the error of [open]; nothing is sent and nothing
    changes, connected or not. *)
Theorem upload_file_needs_the_local_file local_path remote_name w :
  files (disk w) !! local_path = None ∨ local_path ∈ refused (disk w) →
  ∃ e, upload_file local_path remote_name w = (Raise e, w)
    ∧ exn_class e ∈ ["OSError"; "FileNotFoundError"].
Proof.
  intros Hmiss. run. destruct (decide _).
  - eexists. split; [done|]. simpl. rewrite !elem_of_cons. auto.
  - destruct Hmiss as [->|?]; [|done].
    eexists. split; [done|]. simpl. rewrite !elem_of_cons. auto.
Qed.

(** X8: whatever happens, [download_file] leaves [self.ftp] alone and
    sends nothing but the one RETR: the network is as before when [open]
    refuses the path or no connection is held, and as RETR left it
    otherwise. *)
Theorem download_file_keeps_service remote_name local_path w :
  let w' := snd (download_file remote_name local_path w) in
  ftp w' = ftp w
  ∧ match ftp w with
    | Some h =>
        if decide (local_path ∈ refused (disk w)) then net w' = net w
        else net w' = snd (ftp_retrbinary h ("RETR " +:+ remote_name) (net w))
    | None => net w' = net w
    end.
Proof.
  destruct (decide (local_path ∈ refused (disk w))) as [Hin|Hout].
  { rewrite download_file_refused by done. simpl. by destruct (ftp w). }
  destruct (ftp w) as [h|] eqn:Hftp.
  - destruct (ftp_retrbinary h ("RETR " +:+ remote_name) (net w))
      as [[blocks r] n1] eqn:Hretr.
    destruct (download_file_run w h remote_name local_path blocks r n1)
      as (w' & -> & ? & ? & _); [done..|].
    simpl. split; congruence.
  - run. destruct (decide _); [done|]. simpl. by rewrite Hftp.
Qed.

(** X9: when the path cannot be opened for writing, [download_file] raises
    OSError at once: nothing is sent and nothing changes. *)
Theorem download_file_needs_a_writable_path remote_name local_path w :
  local_path ∈ refused (disk w) →
  download_file remote_name local_path w = (Raise (Exn "OSError" local_path), w).
Proof. apply download_file_refused. Qed.

(** X10: a download that succeeds leaves at the destination the blocks
    received, in order, and nothing of what the file held before. *)
Theorem download_file_replaces_content w h remote_name local_path blocks r n1 :
  ftp w = Some h →
  local_path ∉ refused (disk w) →
  ftp_retrbinary h ("RETR " +:+ remote_name) (net w) = ((blocks, Ok r), n1) →
  ∃ w', download_file remote_name local_path w = (Ok (), w')
    ∧ net w' = n1
    ∧ files (disk w') !! local_path = Some (concat blocks).
Proof.
  intros Hftp Hfree Hretr.
  destruct (download_file_run w h remote_name local_path blocks (Ok r) n1)
    as (w' & Hdown & _ & ? & _ & ? & _); [done..|].
  by exists w'.
Qed.

(** X11: once [disconnect] has returned, [list_directory], [upload_file] and
    [download_file] raise and send nothing, until the next [connect]. *)
Theorem operations_after_disconnect w w' path local_path remote_name :
  disconnect w = (Ok (), w') →
  (∃ e, list_directory path w' = (Raise e, w'))
  ∧ (∃ e, upload_file local_path remote_name w' = (Raise e, w'))
  ∧ (∃ e w'', download_file remote_name local_path w' = (Raise e, w'')
       ∧ net w'' = net w').
Proof.
  intros Hdis.
  assert (Hnone : ftp w' = None).
  { revert Hdis. run. destruct w as [[h|] n d]; simpl.
    - destruct (ftp_quit h n) as [[?|?] ?]; simpl; by intros [= <-].
    - by intros [= <-]. }
  clear Hdis. destruct w' as [o n d]. simpl in Hnone. subst o. run.
  split; [by eexists|]. split.
  - destruct (decide _); [by eexists|].
    destruct (files d !! local_path); by eexists.
  - destruct (decide _); by eexists _, _.
Qed.

(** X12: a host that cannot be reached makes [connect] raise what ftplib
    raised; [self.ftp] and the local disk are as before, so a service that
    was disconnected stays so. *)
Theorem connect_unreachable_changes_nothing host user password timeout w e n1 :
  ftp_new host timeout (net w) = (Raise e, n1) →
  ∃ w', connect host user password timeout w = (Raise e, w')
    ∧ ftp w' = ftp w ∧ disk w' = disk w
    ∧ is_connected w' = is_connected w.
Proof.
  intros Hnew. rewrite (connect_unreachable _ _ _ _ _ _ _ Hnew).
  by eexists.
Qed.

(** X13: [connect] and then [disconnect], the server accepting the login and
    the QUIT: both return, the service is disconnected again and the local
    disk is as it was. *)
Theorem connect_then_disconnect host user password timeout w h n1 msg n2 bye n3 :
  ftp_new host timeout (net w) = (Ok h, n1) →
  ftp_login h user password n1 = (Ok msg, n2) →
  ftp_quit h n2 = (Ok bye, n3) →
  (connect host user password timeout;; disconnect) w
  = (Ok (), {| ftp := None; net := n3; disk := disk w |}).
Proof.
  intros Hnew Hlogin Hquit. run. rewrite Hnew. simpl. rewrite Hlogin. simpl.
  by rewrite Hquit.
Qed.

End Frames.

(** ** The local file service *)
Module LocalFacts.
Import LocalFileService.

Lemma visit_kept (os : OS) (abs_path n : string) (items items' : list item) :
  visit os abs_path items n = Ok items' →
  (readable os abs_path n = true
   ∧ ∃ it, describes os abs_path n it ∧ items' = items ++ [it])
  ∨ (readable os abs_path n = false ∧ items' = items).
Proof.
  unfold visit, readable, describes.
  destruct (os_path_isdir os (os_path_join os abs_path n)) eqn:Hdir; simpl.
  - intros [= <-]. left. split; [done|]. eexists. split; [|done]. done.
  - destruct (os_path_getsize os (os_path_join os abs_path n)) as [sz|e] eqn:Hsize.
    + intros [= <-]. left. split; [done|]. eexists. split; [|done]. simpl.
      repeat split. by exists sz.
    + destruct (caught e); [|done]. intros [= <-]. by right.
Qed.

Lemma visit_all_kept (os : OS) (abs_path : string) (names : list string)
    (items items' : list item) :
  visit_all os abs_path items names = Ok items' →
  ∃ new,
    items' = items ++ new
    ∧ Forall2 (describes os abs_path)
        (filter (λ n, readable os abs_path n = true) names) new.
Proof.
  revert items. induction names as [|n names IH]; intros items; simpl.
  - intros [= <-]. exists []. by rewrite app_nil_r.
  - destruct (visit os abs_path items n) as [items1|] eqn:Hvisit; [|done].
    intros (new & -> & Hnew)%IH. rewrite filter_cons.
    apply visit_kept in Hvisit as [(Hr & it & Hit & ->)|(Hr & ->)].
    + exists (it :: new). rewrite <- app_assoc. split; [done|].
      destruct (decide _); [|done]. by constructor.
    + exists new. split; [done|]. destruct (decide _); [congruence|done].
Qed.

Lemma list_directory_kept (os : OS) (path abs_path : string) (items : list item) :
  list_directory os path = Ok (abs_path, items) →
  abs_path = os_path_abspath os path
  ∧ ∃ names,
      os_listdir os abs_path = Ok names
      ∧ Forall2 (describes os abs_path)
          (filter (λ n, readable os abs_path n = true)
             (sorted Str.lower Str.lt names)) items.
Proof.
  unfold list_directory.
  destruct (negb _ || negb _); [done|].
  destruct (os_listdir os (os_path_abspath os path)) as [names|] eqn:Hnames; [|done].
  destruct (visit_all _ _ _ _) as [items'|] eqn:Hvisit; [|done].
  intros [= <- <-]. split; [done|]. exists names. split; [done|].
  by apply visit_all_kept in Hvisit as (new & -> & Hnew).
Qed.

Lemma described_names (os : OS) (abs_path : string) (kept : list string)
    (items : list item) :
  Forall2 (describes os abs_path) kept items → name <$> items = kept.
Proof.
  induction 1 as [|n it kept items [Hn _] _ IH]; [done|].
  by rewrite fmap_cons, Hn, IH.
Qed.

(** X14: a path that does not exist, or that is not a directory, makes
    [list_directory] raise FileNotFoundError; the folder is not read. *)
Theorem list_directory_wants_a_directory (os : OS) (path : string) :
  os_path_exists os path = false ∨ os_path_isdir os path = false →
  ∃ e, list_directory os path = Raise e
    ∧ exn_class e = "FileNotFoundError".
Proof.
  unfold list_directory. intros [-> | ->]; simpl; [by eexists|].
  rewrite orb_true_r. by eexists.
Qed.

(** X15: the entries of a local folder are sorted by name without regard to
    case. *)
Theorem local_entries_sorted_by_name (os : OS) (path abs_path : string)
    (items : list item) :
  list_directory os path = Ok (abs_path, items) →
  nondecreasing Str.lt ((λ it, Str.lower (name it)) <$> items) = true.
Proof.
  intros (_ & names & _ & Hitems)%list_directory_kept.
  apply described_names in Hitems.
  rewrite (list_fmap_compose name Str.lower), Hitems.
  apply StronglySorted_nondecreasing, StronglySorted_filter, sorted_strongly.
Qed.

(** X16: the entries stand one for one for the names of the folder that are
    directories or files whose size can be read; a directory has the size
    [""], a file the size [getsize] gave; the other names are left out, and
    the path returned is the absolute path. *)
Theorem local_entries_describe_the_folder (os : OS) (path abs_path : string)
    (items : list item) :
  list_directory os path = Ok (abs_path, items) →
  abs_path = os_path_abspath os path
  ∧ ∃ names kept,
      os_listdir os abs_path = Ok names
      ∧ kept ≡ₚ filter (λ n, readable os abs_path n = true) names
      ∧ Forall2 (describes os abs_path) kept items.
Proof.
  intros (Habs & names & Hnames & Hitems)%list_directory_kept.
  split; [done|]. eexists names, _. split; [done|]. split; [|done].
  apply filter_Permutation, sorted_perm.
Qed.

(** X17: a file whose size cannot be read does not stop the listing: when the
    folder exists and can be listed and [getsize] raises nothing but
    OSError, [list_directory] returns. *)
Theorem unreadable_files_are_skipped (os : OS) (path : string) (names : list string) :
  os_path_exists os path = true →
  os_path_isdir os path = true →
  os_listdir os (os_path_abspath os path) = Ok names →
  (∀ n e, os_path_getsize os (os_path_join os (os_path_abspath os path) n) = Raise e →
          caught e = true) →
  ∃ items, list_directory os path = Ok (os_path_abspath os path, items)
    ∧ length items ≤ length names.
Proof.
  intros Hex Hdir Hnames Hcaught. unfold list_directory.
  rewrite Hex, Hdir, Hnames. simpl.
  assert (Hall : ∀ l items, ∃ items',
    visit_all os (os_path_abspath os path) items l = Ok items').
  { induction l as [|n l IH]; intros items; simpl; [by eexists|].
    unfold visit.
    destruct (os_path_isdir os (os_path_join os (os_path_abspath os path) n));
      simpl; [apply IH|].
    destruct (os_path_getsize os (os_path_join os (os_path_abspath os path) n))
      as [sz|e] eqn:Hsize; simpl; [apply IH|].
    rewrite (Hcaught _ _ Hsize). apply IH. }
  destruct (Hall (sorted Str.lower Str.lt names) []) as (items & Hitems).
  rewrite Hitems. exists items. split; [done|].
  apply visit_all_kept in Hitems as (new & -> & Hnew). simpl.
  rewrite <- (Forall2_length _ _ _ Hnew).
  etrans; [apply length_filter|]. by rewrite (sorted_perm _ _ names).
Qed.

(** X18: off Windows there are no drives; on Windows the drives are distinct,
    at most 26, and each is a capital letter followed by [:\], the letter
    being one for which [X:] exists. *)
Theorem drives_are_letters (os : OS) :
  NoDup (get_available_drives os)
  ∧ length (get_available_drives os) ≤ 26
  ∧ (platform_system os ≠ "Windows" → get_available_drives os = [])
  ∧ ∀ drive, drive ∈ get_available_drives os →
      ∃ d, d ∈ ascii_uppercase ∧ drive = String d ":\"
        ∧ os_path_exists os (String d ":") = true.
Proof.
  unfold get_available_drives.
  destruct (decide (platform_system os = "Windows")) as [Hwin|Hother].
  - split; [|split; [|split]].
    + apply NoDup_fmap_2; [by intros ?? [=]|]. apply NoDup_filter.
      apply (bool_decide_unpack _). by vm_compute.
    + rewrite length_fmap. etrans; [apply length_filter|]. done.
    + done.
    + intros drive (d & -> & [Hex Hd]%list_elem_of_filter)%list_elem_of_fmap.
      by exists d.
  - split; [constructor|]. split; [simpl; lia|]. split; [done|].
    intros drive Hin. by apply elem_of_nil in Hin.
Qed.

End LocalFacts.

(** ** Navigating the remote tree *)
Module GuiFacts.
Import Gui.

Lemma split_at_not_nil (s part : string) : split_at "/" part s ≠ [].
Proof.
  revert part. induction s as [|c s IH]; intros part; simpl; [done|].
  destruct (decide (c = "/"%char)); [done|apply IH].
Qed.

(** joining the parts gives the text back *)
Lemma join_split_at (s part : string) :
  Str.join "/" (split_at "/" part s) = part +:+ s.
Proof.
  revert part. induction s as [|c s IH]; intros part; simpl.
  - by rewrite append_empty.
  - destruct (decide (c = "/"%char)) as [->|Hc].
    + specialize (IH ""). pose proof (split_at_not_nil s "") as Hne.
      destruct (split_at "/" "" s) as [|q qs]; [done|].
      change (Str.join "/" (part :: q :: qs))
        with (part +:+ String "/" (Str.join "/" (q :: qs))).
      by rewrite IH.
    + by rewrite IH, append_snoc.
Qed.

(** a name without [/] is one part *)
Lemma split_at_plain (n part : string) :
  plain n = true → split_at "/" part n = [part +:+ n].
Proof.
  revert part. induction n as [|c n IH]; intros part Hn; simpl.
  - by rewrite append_empty.
  - simpl in Hn. apply andb_true_iff in Hn as [Hc Hn].
    apply negb_true_iff, bool_decide_eq_false in Hc.
    destruct (decide (c = "/"%char)); [done|].
    by rewrite IH, append_snoc.
Qed.

Lemma split_at_child (p n part : string) :
  plain n = true →
  split_at "/" part (p +:+ String "/" n) = split_at "/" part p ++ [n].
Proof.
  intros Hn. revert part. induction p as [|c p IH]; intros part.
  - change ("" +:+ String "/" n) with (String "/" n). simpl.
    by rewrite split_at_plain.
  - change (String c p +:+ String "/" n) with (String c (p +:+ String "/" n)).
    simpl. destruct (decide (c = "/"%char)); by rewrite IH.
Qed.

(** X19: the path computed for [..] from the path computed for a directory
    under the current path is the current path again, the current path
    not being empty and the name holding no [/]. *)
Theorem up_after_down (current_remote_path item_id : string) :
  current_remote_path ≠ "" →
  item_id ≠ ".." →
  plain item_id = true →
  new_path (new_path current_remote_path item_id) ".." = current_remote_path.
Proof.
  intros Hcur Hid Hplain. unfold new_path.
  destruct (decide (item_id = "..")); [done|].
  destruct (decide (".." = "..")); [|done].
  unfold child_path, parent_path, split_slash.
  destruct (decide (current_remote_path ≠ "/")) as [Hne|Heq].
  - change (current_remote_path +:+ "/" +:+ item_id)
      with (current_remote_path +:+ String "/" item_id).
    rewrite split_at_child by done.
    rewrite length_app. simpl.
    replace (length (split_at "/" "" current_remote_path) + 1 - 1)
      with (length (split_at "/" "" current_remote_path)) by lia.
    rewrite take_app_length, join_split_at.
    change ("" +:+ current_remote_path) with current_remote_path.
    unfold or_else. by destruct (decide _).
  - apply dec_stable in Heq as ->.
    change ("/" +:+ item_id) with (String "/" item_id). simpl.
    by rewrite split_at_plain.
Qed.

(** X20: [..] never leads to the empty path, and from a path that starts
    with [/] it leads to a path that starts with [/]. *)
Theorem up_stays_absolute (current_remote_path : string) :
  parent_path current_remote_path ≠ ""
  ∧ (Str.startswith current_remote_path "/" = true →
     Str.startswith (parent_path current_remote_path) "/" = true).
Proof.
  unfold parent_path, or_else. split.
  - by destruct (decide _).
  - destruct current_remote_path as [|c rest]; [done|]. simpl.
    intros ->%bool_decide_eq_true. unfold split_slash. simpl.
    pose proof (split_at_not_nil rest "") as Hne.
    destruct (split_at "/" "" rest) as [|q qs]; [done|]. simpl.
    destruct (take (length qs) (q :: qs)) as [|t ts]; [done|].
    change (Str.join "/" ("" :: t :: ts))
      with (String "/" (Str.join "/" (t :: ts))).
    by destruct (decide _).
Qed.

End GuiFacts.


(** ** The theorems at work *)
Module Uses.
Import Double Fixtures.

(** three blanks in the line, one in the name *)
Lemma holiday_photo :
  parse_line holiday = Ok (Some (Item "my holiday photo.jpg" "Archivo" "120" false))
  ∧ "my holiday photo.jpg" = Str.join " " ["my"; "holiday"; "photo.jpg"]
  ∧ Str.split "my holiday photo.jpg" = ["my"; "holiday"; "photo.jpg"].
Proof.
  split; [vm_compute; reflexivity|].
  exact (name_keeps_the_words holiday
           (Item "my holiday photo.jpg" "Archivo" "120" false) eq_refl).
Defined.

Lemma scenario_reversed :
  reverse scenario_lines ≡ₚ scenario_lines
  ∧ ∃ items1 items2,
      parse_listing (reverse scenario_lines) = Ok items1
      ∧ parse_listing scenario_lines = Ok items2
      ∧ items1 ≡ₚ items2.
Proof.
  split; [apply reverse_Permutation|].
  apply entries_do_not_depend_on_server_order, reverse_Permutation.
Defined.

Lemma upload_of_a_missing_file :
  let w := connected server home in
  files (disk w) !! "/home/alice/nothing" = None
  ∧ ∃ e, upload_file "/home/alice/nothing" "nothing" w = (Raise e, w)
      ∧ exn_class e ∈ ["OSError"; "FileNotFoundError"].
Proof.
  intros w. split; [reflexivity|].
  apply upload_file_needs_the_local_file. left. reflexivity.
Defined.

Lemma download_to_motd :
  let w := connected server guarded in
  "/etc/motd" ∈ refused (disk w)
  ∧ download_file "notes.txt" "/etc/motd" w = (Raise (Exn "OSError" "/etc/motd"), w).
Proof.
  intros w. assert (Hin : "/etc/motd" ∈ refused (disk w)).
  { apply (bool_decide_unpack _). vm_compute. exact I. }
  split; [exact Hin|]. by apply download_file_needs_a_writable_path.
Defined.

Lemma download_over_notes :
  let w := snd (upload_file "/home/alice/notes.txt" "up.txt" (connected server home)) in
  ∃ w', download_file "up.txt" "/home/alice/notes.txt" w = (Ok (), w')
    ∧ net w' = receive "RETR up.txt" (net w)
    ∧ files (disk w') !! "/home/alice/notes.txt" = Some hello.
Proof.
  intros w.
  apply (download_file_replaces_content w () "up.txt" "/home/alice/notes.txt"
           [[Byte.x68; Byte.x65; Byte.x6c; Byte.x6c]; [Byte.x6f]]
           "226 Transfer complete" (receive "RETR up.txt" (net w)));
    [reflexivity | apply not_elem_of_empty | vm_compute; reflexivity].
Defined.

Lemma after_goodbye :
  let w := connected server home in
  ∃ w', disconnect w = (Ok (), w')
    ∧ (∃ e, list_directory "/" w' = (Raise e, w'))
    ∧ (∃ e, upload_file "/home/alice/notes.txt" "notes.txt" w' = (Raise e, w'))
    ∧ (∃ e w'', download_file "notes.txt" "/home/alice/notes.txt" w' = (Raise e, w'')
         ∧ net w'' = net w').
Proof.
  intros w. exists (snd (disconnect w)). split; [reflexivity|].
  apply (operations_after_disconnect w). reflexivity.
Defined.

Lemma connect_to_a_dead_host :
  ∃ w', connect "ftp.example.com" "alice" "secret" default_timeout (fresh down home)
        = (Raise (Exn "ConnectionRefusedError" "ftp.example.com"), w')
    ∧ ftp w' = None ∧ disk w' = home
    ∧ is_connected w' = false.
Proof.
  apply (connect_unreachable_changes_nothing "ftp.example.com" "alice" "secret"
           default_timeout (fresh down home) _ down).
  reflexivity.
Defined.

Lemma hello_and_goodbye :
  (connect "ftp.example.com" "alice" "secret" default_timeout;; disconnect)
    (fresh server home)
  = (Ok (), {| ftp := None; disk := home;
               net := receive "QUIT" (snd (login () "alice" "secret" server)) |}).
Proof.
  apply (connect_then_disconnect "ftp.example.com" "alice" "secret"
           default_timeout (fresh server home) () server "230 Logged in"
           (snd (login () "alice" "secret" server)) "221 Goodbye");
    reflexivity.
Defined.

Lemma listing_nowhere :
  ∃ e, LocalFileService.list_directory posix "/nowhere" = Raise e
    ∧ exn_class e = "FileNotFoundError".
Proof.
  apply LocalFacts.list_directory_wants_a_directory. left. reflexivity.
Defined.

Lemma alice_sorted :
  LocalFileService.list_directory posix "/home/alice" = Ok ("/home/alice", alice_entries)
  ∧ nondecreasing Str.lt
      ((λ it, Str.lower (LocalFileService.name it)) <$> alice_entries) = true.
Proof.
  assert (H : LocalFileService.list_directory posix "/home/alice"
              = Ok ("/home/alice", alice_entries)) by (vm_compute; reflexivity).
  split; [exact H|].
  exact (LocalFacts.local_entries_sorted_by_name posix _ _ _ H).
Defined.

Lemma alice_described :
  ∃ names kept,
    LocalFileService.os_listdir posix "/home/alice" = Ok names
    ∧ kept ≡ₚ filter (λ n, LocalFileService.readable posix "/home/alice" n = true) names
    ∧ Forall2 (LocalFileService.describes posix "/home/alice") kept alice_entries.
Proof.
  assert (H : LocalFileService.list_directory posix "/home/alice"
              = Ok ("/home/alice", alice_entries)) by (vm_compute; reflexivity).
  exact (proj2 (LocalFacts.local_entries_describe_the_folder posix _ _ _ H)).
Defined.

Lemma alice_listed :
  ∃ items, LocalFileService.list_directory posix "/home/alice" = Ok ("/home/alice", items)
    ∧ length items ≤ 4.
Proof.
  apply (LocalFacts.unreadable_files_are_skipped posix "/home/alice"
           ["notes.txt"; "Music"; "locked"; "Budget.ods"]); try reflexivity.
  intros n e. simpl. repeat case_decide; intros [= <-]; reflexivity.
Defined.

Lemma drives_c_and_e :
  LocalFileService.get_available_drives windows = ["C:\"; "E:\"]
  ∧ NoDup (LocalFileService.get_available_drives windows).
Proof.
  split; [vm_compute; reflexivity|].
  exact (proj1 (LocalFacts.drives_are_letters windows)).
Defined.

Lemma into_docs_and_back :
  Gui.new_path (Gui.new_path "/pub" "docs") ".." = "/pub".
Proof. apply GuiFacts.up_after_down; [discriminate|discriminate|reflexivity]. Defined.

Lemma up_from_pub :
  Str.startswith (Gui.parent_path "/pub/docs") "/" = true.
Proof. apply (GuiFacts.up_stays_absolute "/pub/docs"). reflexivity. Defined.

End Uses.
